(** * Bank reconciliation page of scooterbug_erpnext

    A shallow embedding of [BankReconciler]
    (src/bookingzone/pages/bank_reconciliation/bank_reconciliation.js)
    and of the reconciliation engine its specification describes.

    Conventions of the embedding.
    - Currency values are JavaScript numbers in the source, that is IEEE
      doubles.  A finite double is a rational, so a value is embedded as
      the rational ([Q]) it denotes; comparisons are exact, and the products
      and sums of the source are the exact ones rounded to the nearest
      double ([js_mul], [js_add]).  An amount written as a decimal stands
      for the double nearest to it: [js_mul] and [js_add] take their
      operands to doubles first.
    - Document names, dates (ISO strings) and statuses are strings, as the
      list queries return them.
    - [frappe.call] is asynchronous; the embedding runs the request and its
      callback in sequence, in one step.
    - A JavaScript call ends in a completion: a normal one, or a thrown
      error.  [completion] records which. *)

From Stdlib Require Import List String Ascii ZArith QArith Qround Qabs Lqa Lia Bool Arith
  Permutation.
Import ListNotations.

Local Open Scope string_scope.
Local Open Scope Q_scope.

(** Outcome of running a JavaScript function body. *)
Inductive completion (A : Type) : Type :=
| Normal (value : A)
| Throw (error : string).
Arguments Normal {A} value.
Arguments Throw {A} error.

Definition Qltb (x y : Q) : bool := negb (Qle_bool y x).

(** ** Double-precision arithmetic

    The nearest double of a rational: 53 significant bits, ties to the even
    significand.  Exponent range and subnormals are left out: the magnitudes
    of currency amounts are far inside the normal range. *)

Definition pow2 (e : Z) : Q :=
  if (0 <=? e)%Z then inject_Z (2 ^ e) else / inject_Z (2 ^ (- e)).

(** Nearest integer, ties to even. *)
Definition nearest_even (q : Q) : Z :=
  let f := Qfloor q in
  match Qcompare (q - inject_Z f) (1 # 2) with
  | Lt => f
  | Gt => (f + 1)%Z
  | Eq => if Z.even f then f else (f + 1)%Z
  end.

(** The [k] with [2^k <= q < 2^(k+1)], for [q > 0]. *)
Definition binade (q : Q) : Z :=
  let k := (Z.log2 (Qnum q) - Z.log2 (Zpos (Qden q)))%Z in
  if Qle_bool (pow2 k) q then k else (k - 1)%Z.

Definition round_positive (q : Q) : Q :=
  let e := (binade q - 52)%Z in
  Qred (inject_Z (nearest_even (q / pow2 e)) * pow2 e).

(** The double a decimal literal or an exact result becomes. *)
Definition to_double (q : Q) : Q :=
  match Qcompare q 0 with
  | Eq => 0
  | Gt => round_positive q
  | Lt => - round_positive (- q)
  end.

(** [x * y] and [x + y] on JavaScript numbers. *)
Definition js_mul (x y : Q) : Q := to_double (to_double x * to_double y).

Definition js_add (x y : Q) : Q := to_double (to_double x + to_double y).

(** [Subsequence l k]: [l] is [k] with some elements left out, the others in
the order they have in [k]. *)
Inductive Subsequence {A : Type} : list A -> list A -> Prop :=
| Subsequence_nil : Subsequence [] []
| Subsequence_skip (x : A) (l k : list A) : Subsequence l k -> Subsequence l (x :: k)
| Subsequence_keep (x : A) (l k : list A) : Subsequence l k -> Subsequence (x :: l) (x :: k).

(** ** The host framework's list query

    [frappe.client.get_list] and the document tables are the host
    framework's; the page only builds the arguments.  The model below reads
    the filters the way the page writes them: every filter must hold,
    ['>'] is strict, ['between'] is inclusive at both ends, and rows come in
    the order the host lists the table.  How many rows the host returns at
    most is the host's affair ([page_length]): the sources do not tell
    whether it reads the key [limit]. *)
Module Frappe.

(** A Sales Invoice or Purchase Invoice row, with the fields the page
    asks for. *)
Module Invoice.
Record t : Type := Build {
  name : string;
  grand_total : Q;
  outstanding_amount : Q;
  customer : option string;
  supplier : option string;
  posting_date : string
}.
End Invoice.

(** A Bank Transaction row, with the fields [load_transactions] asks for. *)
Module Txn.
Record t : Type := Build {
  name : string;
  date : string;
  description : string;
  deposit : Q;
  withdrawal : Q;
  unallocated_amount : Q;
  status : string;
  party_type : option string;
  party : option string;
  reference_number : option string
}.
End Txn.

Inductive field : Type :=
| outstanding_amount
| grand_total.

Inductive condition : Type :=
| Greater_than (bound : Q)      (* ['>', bound] *)
| Between (low high : Q).       (* ['between', [low, high]] *)

Record list_args : Type := {
  doctype : string;
  filters : list (field * condition);
  limit : option nat
}.

(** The server: its tables, each in the order the server lists it, and the
greatest number of rows it returns for a query, if it has one. *)
Record database : Type := {
  sales_invoices : list Invoice.t;
  purchase_invoices : list Invoice.t;
  bank_transactions : list Txn.t;
  page_length : list_args -> option nat
}.

Definition value (f : field) (doc : Invoice.t) : Q :=
  match f with
  | outstanding_amount => Invoice.outstanding_amount doc
  | grand_total => Invoice.grand_total doc
  end.

Definition holds (c : condition) (x : Q) : bool :=
  match c with
  | Greater_than bound => Qltb bound x
  | Between low high => Qle_bool low x && Qle_bool x high
  end.

Definition satisfies (fs : list (field * condition)) (doc : Invoice.t) : bool :=
  forallb (fun fc => holds (snd fc) (value (fst fc) doc)) fs.

Definition table (db : database) (doctype : string) : list Invoice.t :=
  if String.eqb doctype "Sales Invoice" then sales_invoices db
  else if String.eqb doctype "Purchase Invoice" then purchase_invoices db
  else [].

Definition cut {A : Type} (limit : option nat) (rows : list A) : list A :=
  match limit with
  | Some n => firstn n rows
  | None => rows
  end.

Definition get_list (db : database) (args : list_args) : list Invoice.t :=
  cut (page_length db args) (filter (satisfies (filters args)) (table db (doctype args))).

End Frappe.

Import Frappe.

(** ** class BankReconciler *)
Module BankReconciler.

(** One rendered [<a class="match-suggestion">] entry of the suggestion
    list: its two data attributes and the texts it shows. *)
Record suggestion : Type := {
  data_doctype : string;
  data_name : string;
  shown_party : option string;
  shown_posting_date : string;
  shown_grand_total : Q;
  shown_outstanding : Q
}.

(** Content of the [#match-suggestions] container. *)
Inductive suggestions_html : Type :=
| Untouched
| Suggestion_list (entries : list suggestion)
| No_matching_documents_found.

(** The reconciler object ([this]), the part of the page it writes to and
    the server it talks to. *)
Record reconciler : Type := {
  transactions : list Txn.t;
  currentFilter : string;
  currentTransaction : option Txn.t
}.

Record world : Type := {
  this : reconciler;
  match_suggestions : suggestions_html;
  server : database
}.

(** [a || b] on values that are strings or null. *)
Definition truthy (s : option string) : bool :=
  match s with
  | Some s => negb (String.eqb s "")
  | None => false
  end.

Definition or_else (a b : option string) : option string :=
  if truthy a then a else b.

(** [x || y] on numbers: [x] unless it is zero. *)
Definition num_or (x y : Q) : Q :=
  if Qeq_bool x 0 then y else x.

(** Lines 423-424. *)
Definition isDeposit (txn : Txn.t) : bool := Qltb 0 (Txn.deposit txn).

Definition amount (txn : Txn.t) : Q :=
  if isDeposit txn then Txn.deposit txn else Txn.withdrawal txn.

(** Line 427. *)
Definition doctype_of (txn : Txn.t) : string :=
  if isDeposit txn then "Sales Invoice" else "Purchase Invoice".

(** Line 435: the two bounds, products of doubles. *)
Definition low_bound (txn : Txn.t) : Q := js_mul (amount txn) 0.95.

Definition high_bound (txn : Txn.t) : Q := js_mul (amount txn) 1.05.

(** Lines 431-439: the arguments of the list query. *)
Definition suggestion_query (txn : Txn.t) : list_args :=
  {| doctype := doctype_of txn;
     filters := [ (outstanding_amount, Greater_than 0);
                  (grand_total, Between (low_bound txn) (high_bound txn)) ];
     limit := Some 10%nat |}.

(** Lines 443-460: one entry per returned document, in the order
    returned. *)
Definition render (doctype : string) (doc : Invoice.t) : suggestion :=
  {| data_doctype := doctype;
     data_name := Invoice.name doc;
     shown_party := or_else (Invoice.customer doc) (Invoice.supplier doc);
     shown_posting_date := Invoice.posting_date doc;
     shown_grand_total := Invoice.grand_total doc;
     shown_outstanding := Invoice.outstanding_amount doc |}.

(** Lines 440-473: the callback. *)
Definition show_suggestions (doctype : string) (message : list Invoice.t)
  : suggestions_html :=
  match message with
  | [] => No_matching_documents_found
  | _ :: _ => Suggestion_list (map (render doctype) message)
  end.

(** The documents the server answers with. *)
Definition candidates (txn : Txn.t) (db : database) : list Invoice.t :=
  get_list db (suggestion_query txn).

(** Lines 421-475. *)
Definition load_match_suggestions (txn : Txn.t) (w : world) : completion world :=
  let message := candidates txn (server w) in
  Normal {| this := this w;
            match_suggestions := show_suggestions (doctype_of txn) message;
            server := server w |}.

(** Lines 397-419: opening the match dialog records the transaction and
sends the list query; an unknown name does nothing.  This is the state when
[open_match_modal] returns: the reply has not arrived, and the suggestion
list is the one shown before.  The reply is handled by the callback, the
step [load_match_suggestions] of the transaction recorded. *)
Definition open_match_modal (transactionName : string) (w : world) : completion world :=
  match find (fun t => String.eqb (Txn.name t) transactionName) (transactions (this w)) with
  | None => Normal w
  | Some txn =>
      Normal {| this := {| transactions := transactions (this w);
                           currentFilter := currentFilter (this w);
                           currentTransaction := Some txn |};
                match_suggestions := match_suggestions w;
                server := server w |}
  end.

(** The suggestion entries on the page, in order. *)
Definition entries (h : suggestions_html) : list suggestion :=
  match h with
  | Suggestion_list es => es
  | _ => []
  end.

(** Lines 385-395. *)
Record summary : Type := {
  total_deposits : Q;
  total_withdrawals : Q;
  unreconciled_count : nat;
  auto_matched : nat
}.

Definition is_unreconciled (t : Txn.t) : bool :=
  negb (String.eqb (Txn.status t) "Reconciled").

Definition is_auto_matched (t : Txn.t) : bool :=
  Qeq_bool (Txn.unallocated_amount t) 0 && negb (String.eqb (Txn.status t) "Reconciled").

Definition update_summary (r : reconciler) : summary :=
  {| total_deposits :=
       fold_left (fun sum t => js_add sum (num_or (Txn.deposit t) 0)) (transactions r) 0;
     total_withdrawals :=
       fold_left (fun sum t => js_add sum (num_or (Txn.withdrawal t) 0)) (transactions r) 0;
     unreconciled_count := List.length (filter is_unreconciled (transactions r));
     auto_matched := List.length (filter is_auto_matched (transactions r)) |}.

(** Lines 477-487: the voucher list sent to [reconcile_vouchers]. *)
Record voucher : Type := {
  payment_doctype : string;
  payment_name : string;
  voucher_amount : Q
}.

Record reconcile_request : Type := {
  bank_transaction_name : string;
  vouchers : list voucher
}.

(** The request [match_to_document] sends; [this.currentTransaction.name]
throws when no transaction is open.  Its callback closes the dialog and
reloads the transactions. *)
Definition match_to_document (doctype name : string) (r : reconciler)
  : completion reconcile_request :=
  match currentTransaction r with
  | None => Throw "TypeError"
  | Some txn =>
      Normal {| bank_transaction_name := Txn.name txn;
                vouchers := [ {| payment_doctype := doctype;
                                 payment_name := name;
                                 voucher_amount :=
                                   num_or (Txn.deposit txn) (Txn.withdrawal txn) |} ] |}
  end.

(** *** Vocabulary of the statements about the page *)

(** The pool the lookup searches: the table of the transaction's doctype. *)
Definition pool (txn : Txn.t) (db : database) : list Invoice.t :=
  table db (doctype_of txn).




(** A bank transaction as the data model wants it: non-negative amounts,
exactly one of them nonzero. *)
Definition well_formed (txn : Txn.t) : Prop :=
  0 <= Txn.deposit txn /\ 0 <= Txn.withdrawal txn
  /\ ((~ Txn.deposit txn == 0 /\ Txn.withdrawal txn == 0)
      \/ (Txn.deposit txn == 0 /\ ~ Txn.withdrawal txn == 0)).

(** Closest outstanding amount first. *)
Definition closest_first (x : Q) (docs : list Invoice.t) : Prop :=
  forall (i j : nat) (a b : Invoice.t),
    (i < j)%nat -> nth_error docs i = Some a -> nth_error docs j = Some b ->
    Qabs (Invoice.outstanding_amount a - x) <= Qabs (Invoice.outstanding_amount b - x).

End BankReconciler.

Import BankReconciler.

(** ** The reconciliation engine of the specification

    The page's Auto-Categorize button calls the server method
    [bookingzone.api.bulk_categorize_transactions]; that method is not among
    the sources.  The engine it stands for (Matcher, Auto-Categorizer,
    Reconciliation Orchestrator) is modelled here from the specification. *)
Module Engine.

Inductive recon_status : Type :=
| Unreconciled
| Suggested
| Reconciled.

(** A deposit is matched against receivable documents, a withdrawal against
payable ones. *)
Inductive direction : Type :=
| Receivable
| Payable.

Record candidate : Type := {
  candidate_id : string;
  total_amount : Q;
  outstanding : Q;
  candidate_party : string;
  posting : string
}.

Record proposal : Type := {
  for_transaction : string;
  proposed_candidate : string;
  proposed_type : direction;
  amount_difference : Q
}.

(** What a reconciled transaction is linked to: a voucher, or, for a
reconciliation by rule, the rule's target account. *)
Inductive link : Type :=
| Voucher (type : string) (voucher_name : string)
| Rule_target (account : string).

Record transaction : Type := {
  id : string;
  date : string;
  description : string;
  deposit : Q;
  withdrawal : Q;
  party : option string;
  account : option string;
  reference_number : option string;
  status : recon_status;
  linked_voucher : option link;
  last_offered : list proposal
}.

Record rule : Type := {
  rule_id : string;
  pattern : string;
  target_account : string;
  target_party : option string;
  auto_reconcile : bool
}.

Definition status_eqb (a b : recon_status) : bool :=
  match a, b with
  | Unreconciled, Unreconciled | Suggested, Suggested | Reconciled, Reconciled => true
  | _, _ => false
  end.

(** *** 4.1 Matcher *)

Definition default_tolerance : Q := 0.05.

Definition nonzero (x : Q) : bool := negb (Qeq_bool x 0).

(** Modelled from the spec: the Matcher's direction test, which fails with
[InvalidTransactionError] when deposit and withdrawal are both zero or both
nonzero. *)
Definition direction_of (t : transaction) : completion (direction * Q) :=
  match nonzero (deposit t), nonzero (withdrawal t) with
  | true, false => Normal (Receivable, deposit t)
  | false, true => Normal (Payable, withdrawal t)
  | _, _ => Throw "InvalidTransactionError"
  end.

(** Modelled from the spec: the tolerance filter on the outstanding amount. *)
Definition within_tolerance (tolerance amount : Q) (c : candidate) : bool :=
  Qltb 0 (outstanding c)
  && Qle_bool (amount * (1 - tolerance)) (outstanding c)
  && Qle_bool (outstanding c) (amount * (1 + tolerance)).

Definition closeness (amount : Q) (c : candidate) : Q :=
  Qabs (outstanding c - amount).

(** [ranks_before amount a b]: [a] is listed no later than [b]: closer
amount first, then older posting date, then smaller identifier. *)
Definition ranks_before (amount : Q) (a b : candidate) : bool :=
  match Qcompare (closeness amount a) (closeness amount b) with
  | Lt => true
  | Gt => false
  | Eq =>
      match String.compare (posting a) (posting b) with
      | Lt => true
      | Gt => false
      | Eq => String.leb (candidate_id a) (candidate_id b)
      end
  end.

Fixpoint insert_ranked (amount : Q) (c : candidate) (l : list candidate) : list candidate :=
  match l with
  | [] => [c]
  | d :: rest =>
      if ranks_before amount c d then c :: l
      else d :: insert_ranked amount c rest
  end.

Definition rank (amount : Q) (l : list candidate) : list candidate :=
  fold_right (insert_ranked amount) [] l.

Definition propose (t : transaction) (dir : direction) (amount : Q) (c : candidate) : proposal :=
  {| for_transaction := id t;
     proposed_candidate := candidate_id c;
     proposed_type := dir;
     amount_difference := closeness amount c |}.

(** The two candidate pools a provider hands out, by direction. *)
Record pools : Type := {
  receivable : list candidate;
  payable : list candidate
}.

Definition pool_of (p : pools) (dir : direction) : list candidate :=
  match dir with
  | Receivable => receivable p
  | Payable => payable p
  end.

(** Modelled from the spec: [findCandidates], with the pool chosen by the
transaction's direction. *)
Definition findCandidates (tolerance : Q) (t : transaction) (p : pools)
  : completion (list proposal) :=
  match direction_of t with
  | Throw e => Throw e
  | Normal (dir, amount) =>
      Normal (map (propose t dir amount)
                  (rank amount (filter (within_tolerance tolerance amount) (pool_of p dir))))
  end.

(** *** 4.2 Auto-Categorizer *)

Definition lower_char (c : ascii) : ascii :=
  let n := nat_of_ascii c in
  if (65 <=? n)%nat && (n <=? 90)%nat then ascii_of_nat (n + 32) else c.

Fixpoint normalize (s : string) : string :=
  match s with
  | EmptyString => EmptyString
  | String c rest => String (lower_char c) (normalize rest)
  end.

Definition is_substring (fragment text : string) : bool :=
  match index 0 fragment text with
  | Some _ => true
  | None => false
  end.

Definition rule_matches (description : string) (r : rule) : bool :=
  is_substring (normalize (pattern r)) (normalize description).

Record CategorizationResult : Type := {
  matchedRule : option rule;
  proposedAccount : option string;
  proposedParty : option string;
  shouldAutoReconcile : bool
}.

(** Modelled from the spec: [categorize]; rules are tried in store order and
the first match wins. *)
Definition categorize (t : transaction) (ruleSet : list rule) : CategorizationResult :=
  match find (rule_matches (description t)) ruleSet with
  | Some r =>
      {| matchedRule := Some r;
         proposedAccount := Some (target_account r);
         proposedParty := target_party r;
         shouldAutoReconcile := auto_reconcile r |}
  | None =>
      {| matchedRule := None;
         proposedAccount := None;
         proposedParty := None;
         shouldAutoReconcile := false |}
  end.

(** *** 4.3 Reconciliation Orchestrator *)

Record BulkResult : Type := {
  processed : nat;
  matched : nat;
  reconciled : nat;
  suggested : nat;
  unreconciled : nat;
  failed : nat
}.

(** What one pass keeps in memory: the pools with the balances it has
decremented, and the candidates it has claimed. *)
Record memory : Type := {
  balances : pools;
  claimed : list string
}.

Inductive outcome : Type :=
| Skipped
| Reconciled_by_rule
| Reconciled_by_match
| Offered
| No_proposal
| Failed (reason : string).

Definition document_type (dir : direction) : string :=
  match dir with
  | Receivable => "Sales Invoice"
  | Payable => "Purchase Invoice"
  end.

Definition amount_of (t : transaction) : Q :=
  match direction_of t with
  | Normal (_, amount) => amount
  | Throw _ => 0
  end.

Definition decrement (cid : string) (amount : Q) (l : list candidate) : list candidate :=
  map (fun c =>
         if String.eqb (candidate_id c) cid
         then {| candidate_id := candidate_id c;
                 total_amount := total_amount c;
                 outstanding := outstanding c - amount;
                 candidate_party := candidate_party c;
                 posting := posting c |}
         else c) l.

(** Modelled from the spec: the in-memory claim of a matched candidate, whose
outstanding balance is decremented within the pass. *)
Definition claim (dir : direction) (cid : string) (amount : Q) (m : memory) : memory :=
  {| balances :=
       match dir with
       | Receivable => {| receivable := decrement cid amount (receivable (balances m));
                          payable := payable (balances m) |}
       | Payable => {| receivable := receivable (balances m);
                       payable := decrement cid amount (payable (balances m)) |}
       end;
     claimed := cid :: claimed m |}.

(** The transaction with a new status, link and offered proposals. *)
Definition settle (t : transaction) (s : recon_status) (v : option link)
  (offered : list proposal) : transaction :=
  {| id := id t;
     date := date t;
     description := description t;
     deposit := deposit t;
     withdrawal := withdrawal t;
     party := party t;
     account := account t;
     reference_number := reference_number t;
     status := s;
     linked_voucher := v;
     last_offered := offered |}.

(** Step 2: reconciliation by an auto-reconcile rule; the rule's target is
the linked voucher context. *)
Definition reconcile_by_rule (t : transaction) (r : rule) : transaction :=
  {| id := id t;
     date := date t;
     description := description t;
     deposit := deposit t;
     withdrawal := withdrawal t;
     party := match target_party r with Some p => Some p | None => party t end;
     account := Some (target_account r);
     reference_number := reference_number t;
     status := Reconciled;
     linked_voucher := Some (Rule_target (target_account r));
     last_offered := last_offered t |}.

(** Step 3: what the Matcher's answer does to the transaction. *)
Definition apply_proposals (t : transaction) (m : memory) (offered : list proposal)
  : transaction * memory * outcome :=
  match offered with
  | [] => (settle t Unreconciled (linked_voucher t) [], m, No_proposal)
  | [p] =>
      if Qeq_bool (amount_difference p) 0
      then (settle t Reconciled
                   (Some (Voucher (document_type (proposed_type p)) (proposed_candidate p)))
                   offered,
            claim (proposed_type p) (proposed_candidate p) (amount_of t) m,
            Reconciled_by_match)
      else (settle t Suggested (linked_voucher t) offered, m, Offered)
  | _ :: _ :: _ => (settle t Suggested (linked_voucher t) offered, m, Offered)
  end.

(** Modelled from the spec: steps 1 to 3 of the Orchestrator's algorithm for
one transaction. *)
Definition step (tolerance : Q) (ruleSet : list rule) (t : transaction) (m : memory)
  : transaction * memory * outcome :=
  match status t with
  | Reconciled => (t, m, Skipped)
  | _ =>
      let c := categorize t ruleSet in
      match matchedRule c, shouldAutoReconcile c with
      | Some r, true => (reconcile_by_rule t r, m, Reconciled_by_rule)
      | _, _ =>
          match findCandidates tolerance t (balances m) with
          | Throw e => (t, m, Failed e)
          | Normal offered => apply_proposals t m offered
          end
      end
  end.

Fixpoint pass (tolerance : Q) (ruleSet : list rule) (txns : list transaction) (m : memory)
  : list (transaction * outcome) * memory :=
  match txns with
  | [] => ([], m)
  | t :: rest =>
      let '(t', m', o) := step tolerance ruleSet t m in
      let '(done, m'') := pass tolerance ruleSet rest m' in
      ((t', o) :: done, m'')
  end.

Definition is_skipped (o : outcome) : bool :=
  match o with Skipped => true | _ => false end.

Definition is_reconciled (o : outcome) : bool :=
  match o with Reconciled_by_rule | Reconciled_by_match => true | _ => false end.

Definition is_offered (o : outcome) : bool :=
  match o with Offered => true | _ => false end.

Definition is_no_proposal (o : outcome) : bool :=
  match o with No_proposal => true | _ => false end.

Definition is_failed (o : outcome) : bool :=
  match o with Failed _ => true | _ => false end.

Definition count (f : outcome -> bool) (os : list outcome) : nat :=
  List.length (filter f os).

(** Step 4: the counts of a pass. *)
Definition tally (os : list outcome) : BulkResult :=
  {| processed := count (fun o => negb (is_skipped o)) os;
     matched := (count is_reconciled os + count is_offered os)%nat;
     reconciled := count is_reconciled os;
     suggested := count is_offered os;
     unreconciled := count is_no_proposal os;
     failed := count is_failed os |}.

Record pass_result : Type := {
  result : BulkResult;
  transactions_after : list transaction;
  memory_after : memory
}.

(** Modelled from the spec: [runBulkPass]; the provider's pools are read at
the start of the pass and the claims are kept in the pass's own memory. *)
Definition runBulkPass (txns : list transaction) (candidatePoolProvider : pools)
  (ruleSet : list rule) : pass_result :=
  let '(done, m) :=
    pass default_tolerance ruleSet txns
         {| balances := candidatePoolProvider; claimed := [] |} in
  {| result := tally (map snd done);
     transactions_after := map fst done;
     memory_after := m |}.

(** Modelled from the spec: the Transaction Store's
[updateStatus(id, status, linkedVoucher?)]. *)
Definition updateStatus (txn_id : string) (s : recon_status) (v : option link)
  (txns : list transaction) : list transaction :=
  map (fun t =>
         if String.eqb (id t) txn_id
         then settle t s (match v with Some _ => v | None => linked_voucher t end)
                     (last_offered t)
         else t) txns.

(** Modelled from the spec: the store's handling of the page's
[reconcile_vouchers] request, which links the voucher sent. *)
Definition reconcile_vouchers (req : reconcile_request) (txns : list transaction)
  : list transaction :=
  match vouchers req with
  | v :: _ =>
      updateStatus (bank_transaction_name req) Reconciled
                   (Some (Voucher (payment_doctype v) (payment_name v))) txns
  | [] => txns
  end.

(** States the operations of the core lead to. *)
Inductive reachable (start : list transaction) : list transaction -> Prop :=
| reach_start : reachable start start
| reach_bulk (s : list transaction) (provider : pools) (ruleSet : list rule) :
    reachable start s ->
    reachable start (transactions_after (runBulkPass s provider ruleSet))
| reach_manual (s : list transaction) (doctype name : string) (r : reconciler)
    (req : reconcile_request) :
    reachable start s ->
    match_to_document doctype name r = Normal req ->
    reachable start (reconcile_vouchers req s).

(** A proposal is open while its candidate still has a balance to pay in the
pools. *)
Definition still_open (p : pools) (x : proposal) : bool :=
  existsb (fun c => String.eqb (candidate_id c) (proposed_candidate x)
                    && Qltb 0 (outstanding c))
          (pool_of p (proposed_type x)).

Definition has_open_proposal (p : pools) (t : transaction) : bool :=
  existsb (still_open p) (last_offered t).

(** The data-model invariant on one transaction. *)
Definition well_linked (t : transaction) : Prop :=
  match status t with
  | Reconciled => linked_voucher t <> None
  | Suggested => last_offered t <> []
  | Unreconciled => last_offered t = []
  end.

End Engine.

Import Engine.

(** ** Sample data *)
Module Samples.

Definition bank_txn (name : string) (deposit withdrawal : Q) : Txn.t :=
  Txn.Build name "2024-03-01" "ACME SUPPLY" deposit withdrawal
            (deposit + withdrawal) "Unreconciled" None None None.

Definition purchase (name : string) (total outstanding : Q) : Invoice.t :=
  Invoice.Build name total outstanding None (Some "Acme Supply") "2024-02-20".

Definition sale (name : string) (total outstanding : Q) : Invoice.t :=
  Invoice.Build name total outstanding (Some "Jane Roe") None "2024-02-20".

(** A server that returns at most [limit] rows. *)
Definition payables (docs : list Invoice.t) : database :=
  {| sales_invoices := [];
     purchase_invoices := docs;
     bank_transactions := [];
     page_length := limit |}.


Definition withdrawal_3_80 : Txn.t := bank_txn "BT-0005" 0 3.8.
Definition owing_3_99 : Invoice.t := purchase "PINV-0399" 3.99 3.99.

Definition withdrawal_100 : Txn.t := bank_txn "BT-0001" 0 100.
Definition deposit_250 : Txn.t := bank_txn "BT-0002" 250 0.
Definition no_amount : Txn.t := bank_txn "BT-0003" 0 0.
Definition both_amounts : Txn.t := bank_txn "BT-0004" 40 60.


Definition owing_95 : Invoice.t := purchase "PINV-0095" 95 95.
Definition owing_100 : Invoice.t := purchase "PINV-0100" 100 100.

Definition idle (db : database) : world :=
  {| this := {| transactions := []; currentFilter := "all"; currentTransaction := None |};
     match_suggestions := Untouched;
     server := db |}.

(** Engine data: transactions fresh from the bank feed, candidates, rules. *)
Definition imported (txn_id description : string) (deposit withdrawal : Q) : transaction :=
  {| id := txn_id;
     date := "2024-03-01";
     description := description;
     deposit := deposit;
     withdrawal := withdrawal;
     party := None;
     account := None;
     reference_number := None;
     status := Unreconciled;
     linked_voucher := None;
     last_offered := [] |}.

Definition open_bill (cid : string) (x : Q) : candidate :=
  {| candidate_id := cid;
     total_amount := x;
     outstanding := x;
     candidate_party := "Acme Supply";
     posting := "2024-02-20" |}.

Definition bills (l : list candidate) : pools :=
  {| receivable := []; payable := l |}.

Definition uber_rule : rule :=
  {| rule_id := "RULE-0001";
     pattern := "UBER";
     target_account := "Travel Expenses";
     target_party := None;
     auto_reconcile := true |}.

(** Two withdrawals of 100 and a single open bill of 100. *)
Definition rivals : list transaction :=
  [imported "BT-A" "ACME SUPPLY" 0 100; imported "BT-B" "ACME SUPPLY" 0 100].

(** A withdrawal of 100, then one of 95; open bills of 100 and of 95. *)
Definition neighbours : list transaction :=
  [imported "BT-A" "ACME SUPPLY" 0 100; imported "BT-B" "ACME SUPPLY" 0 95].

(** Withdrawals of 100, 96 and 104; open bills of 96 and 104. *)
Definition crowded : list transaction :=
  [imported "BT-1" "ACME SUPPLY" 0 100;
   imported "BT-2" "ACME SUPPLY" 0 96;
   imported "BT-3" "ACME SUPPLY" 0 104].

(** A withdrawal of 100 with two bills in tolerance, and a ride paid by
card. *)
Definition mixed : list transaction :=
  [imported "BT-A" "ACME SUPPLY" 0 100; imported "BT-C" "UBER TRIP 482" 0 23].

End Samples.

(** ** class BankReconciler: the transaction list

    [render_transactions] (lines 312-383), the tab handler (lines 268-274)
    and the rule pattern the match dialog proposes (line 412).  The
    characters of a string are its code units, so [substring(0, 30)] keeps
    the first 30 of them. *)
Module TransactionList.

Inductive badge : Type :=
| Badge_reconciled     (* <span class="badge bg-success">Reconciled</span> *)
| Badge_suggested      (* <span class="badge bg-warning">Suggested</span> *)
| Badge_pending.       (* <span class="badge bg-secondary">Pending</span> *)

(** One [<div class="transaction-row ...">] of the list. *)
Record row : Type := {
  row_class : string;
  row_name : string;
  row_date : string;
  row_reference : string;
  row_description : string;
  row_party : option (option string * string);
  row_amount_class : string;
  row_sign : string;
  row_amount : Q;
  row_badge : badge
}.

(** Content of the [#transactions-list] container. *)
Inductive transactions_html : Type :=
| No_transactions_found
| Rows (rows : list row).

(** Lines 317-330: the [switch] on the current filter. *)
Definition apply_filter (currentFilter : string) (l : list Txn.t) : list Txn.t :=
  if String.eqb currentFilter "unreconciled"
  then filter (fun t => negb (String.eqb (Txn.status t) "Reconciled")) l
  else if String.eqb currentFilter "reconciled"
  then filter (fun t => String.eqb (Txn.status t) "Reconciled") l
  else if String.eqb currentFilter "deposits"
  then filter (fun t => Qltb 0 (Txn.deposit t)) l
  else if String.eqb currentFilter "withdrawals"
  then filter (fun t => Qltb 0 (Txn.withdrawal t)) l
  else l.

(** Lines 346-347. *)
Definition isReconciled (txn : Txn.t) : bool :=
  String.eqb (Txn.status txn) "Reconciled".

Definition hasSuggestion (txn : Txn.t) : bool :=
  Qeq_bool (Txn.unallocated_amount txn) 0 && negb (isReconciled txn).

(** Lines 349-351. *)
Definition rowClass (txn : Txn.t) : string :=
  if isReconciled txn then "transaction-row" ++ " reconciled"
  else if hasSuggestion txn then "transaction-row" ++ " suggested"
  else "transaction-row".

(** Lines 370-375. *)
Definition badge_of (txn : Txn.t) : badge :=
  if isReconciled txn then Badge_reconciled
  else if hasSuggestion txn then Badge_suggested
  else Badge_pending.

(** Lines 344-377: one row. *)
Definition render_row (txn : Txn.t) : row :=
  {| row_class := rowClass txn;
     row_name := Txn.name txn;
     row_date := Txn.date txn;
     row_reference := match Txn.reference_number txn with Some s => s | None => "" end;
     row_description :=
       if String.eqb (Txn.description txn) "" then "No description"
       else Txn.description txn;
     row_party :=
       if truthy (Txn.party txn)
       then match Txn.party txn with
            | Some p => Some (Txn.party_type txn, p)
            | None => None
            end
       else None;
     row_amount_class := if isDeposit txn then "deposit" else "withdrawal";
     row_sign := if isDeposit txn then "+" else "-";
     row_amount := amount txn;
     row_badge := badge_of txn |}.

(** What the All tab lists. *)
Definition all_rows (r : reconciler) : list row :=
  map render_row (transactions r).

(** Lines 312-383. *)
Definition render_transactions (r : reconciler) : transactions_html :=
  match apply_filter (currentFilter r) (transactions r) with
  | [] => No_transactions_found
  | filtered => Rows (map render_row filtered)
  end.

(** Lines 268-274: a click on a tab. *)
Definition click_tab (tab : string) (r : reconciler) : reconciler * transactions_html :=
  let r' := {| transactions := transactions r;
               currentFilter := tab;
               currentTransaction := currentTransaction r |} in
  (r', render_transactions r').

(** Line 412: the pattern proposed for a new rule. *)
Definition rule_pattern (txn : Txn.t) : string :=
  if String.eqb (Txn.description txn) "" then ""
  else substring 0 30 (Txn.description txn).

Definition badge_eqb (a b : badge) : bool :=
  match a, b with
  | Badge_reconciled, Badge_reconciled
  | Badge_suggested, Badge_suggested
  | Badge_pending, Badge_pending => true
  | _, _ => false
  end.

Definition badge_count (b : badge) (rows : list row) : nat :=
  List.length (filter (fun x => badge_eqb (row_badge x) b) rows).

(** A mixed statement: two settled transactions, two open ones. *)
Definition statement : list Txn.t :=
  [ Txn.Build "BT-0101" "2024-03-04" "CARD SETTLEMENT" 250 0 0 "Reconciled" None None None;
    Txn.Build "BT-0102" "2024-03-03" "ACME SUPPLY" 0 100 0 "Unreconciled"
              (Some "Supplier") (Some "Acme Supply") (Some "INV 4411");
    Txn.Build "BT-0103" "2024-03-02" "" 0 40 40 "Pending" None None None;
    Txn.Build "BT-0104" "2024-03-01" "RENT" 0 900 0 "Reconciled" None None None ].

Definition settled : list Txn.t :=
  [ Txn.Build "BT-0101" "2024-03-04" "CARD SETTLEMENT" 250 0 0 "Reconciled" None None None;
    Txn.Build "BT-0104" "2024-03-01" "RENT" 0 900 0 "Reconciled" None None None ].

Definition holding (l : list Txn.t) (tab : string) : reconciler :=
  {| transactions := l; currentFilter := tab; currentTransaction := None |}.

End TransactionList.

Import TransactionList.

(** * Properties of the page *)

Section Filter_facts.

Lemma Qltb_lt (x y : Q) : Qltb x y = true <-> x < y.
Proof.
  unfold Qltb. rewrite negb_true_iff. split.
  - intro H. apply Qnot_le_lt. intro L. apply Qle_bool_iff in L. congruence.
  - intro H. destruct (Qle_bool y x) eqn:E; [|reflexivity].
    apply Qle_bool_iff in E. exfalso. apply (Qlt_not_le _ _ H E).
Qed.


Lemma candidates_unfold (txn : Txn.t) (db : database) :
  candidates txn db
  = cut (page_length db (suggestion_query txn))
        (filter (satisfies (filters (suggestion_query txn))) (pool txn db)).
Proof. reflexivity. Qed.

Lemma Subsequence_refl {A : Type} (l : list A) : Subsequence l l.
Proof. induction l; constructor; assumption. Qed.

Lemma Subsequence_nil_l {A : Type} (l : list A) : Subsequence [] l.
Proof. induction l; constructor; assumption. Qed.

Lemma Subsequence_trans {A : Type} (l k m : list A) :
  Subsequence l k -> Subsequence k m -> Subsequence l m.
Proof.
  intros H1 H2. revert l H1.
  induction H2 as [|x k m H2 IH|x k m H2 IH]; intros l H1.
  - assumption.
  - constructor. apply IH. assumption.
  - inversion H1; subst.
    + constructor. apply IH. assumption.
    + apply Subsequence_keep. apply IH. assumption.
Qed.

Lemma Subsequence_filter {A : Type} (f : A -> bool) (l : list A) :
  Subsequence (filter f l) l.
Proof.
  induction l as [|x l IH]; simpl.
  - constructor.
  - destruct (f x); constructor; assumption.
Qed.

Lemma Subsequence_firstn {A : Type} (n : nat) (l : list A) :
  Subsequence (firstn n l) l.
Proof.
  revert n. induction l as [|x l IH]; intros [|n]; simpl.
  - constructor.
  - constructor.
  - apply Subsequence_nil_l.
  - apply Subsequence_keep. apply IH.
Qed.

Lemma Subsequence_In {A : Type} (l k : list A) (x : A) :
  Subsequence l k -> In x l -> In x k.
Proof.
  induction 1; simpl; intros HIn.
  - assumption.
  - right. auto.
  - destruct HIn; [left | right]; auto.
Qed.

Lemma firstn_member {A : Type} (n : nat) (l : list A) (x : A) :
  In x (firstn n l) -> In x l.
Proof. apply Subsequence_In, Subsequence_firstn. Qed.

Lemma Subsequence_cut {A : Type} (page : option nat) (l : list A) :
  Subsequence (cut page l) l.
Proof. destruct page as [n|]; [apply Subsequence_firstn | apply Subsequence_refl]. Qed.






End Filter_facts.

(** ** The candidate filter *)




(** The bounds are products of doubles: for a withdrawal of 3.80 the upper
bound is the double just below 3.99, and an invoice of 3.99, at exactly five
per cent above, is not returned. *)
Example total_at_five_per_cent_above :
  high_bound Samples.withdrawal_3_80 == 8984681256604139 # 2251799813685248
  /\ high_bound Samples.withdrawal_3_80 < 3.99
  /\ 3.8 * 1.05 == 3.99
  /\ candidates Samples.withdrawal_3_80 (Samples.payables [Samples.owing_3_99]) = [].
Proof. vm_compute. repeat split; discriminate. Qed.




(** With a server that takes [limit] for its page length, of twelve equal
invoices that all pass the filter, ten are returned. *)
Example twelve_qualify_ten_returned :
  let docs := repeat Samples.owing_100 12 in
  List.length (filter (satisfies (filters (suggestion_query Samples.withdrawal_100))) docs) = 12%nat
  /\ List.length (candidates Samples.withdrawal_100 (Samples.payables docs)) = 10%nat.
Proof. vm_compute. split; reflexivity. Qed.

(** ** Order of the suggestions *)

(** C3, as worded, fails: the page does not sort.  For a withdrawal of 100
and the payable documents listed as 95 then 100, the suggestions come as 95
then 100, farther amount first. *)
Lemma suggestions_are_not_sorted :
  let db := Samples.payables [Samples.owing_95; Samples.owing_100] in
  candidates Samples.withdrawal_100 db = [Samples.owing_95; Samples.owing_100]
  /\ map data_name
         (entries (show_suggestions (doctype_of Samples.withdrawal_100)
                                    (candidates Samples.withdrawal_100 db)))
     = ["PINV-0095"; "PINV-0100"]
  /\ ~ closest_first (amount Samples.withdrawal_100) (candidates Samples.withdrawal_100 db).
Proof.
  cbv zeta. split; [reflexivity | split; [reflexivity|]].
  intro H.
  specialize (H 0%nat 1%nat Samples.owing_95 Samples.owing_100
                (Nat.lt_0_succ 0) eq_refl eq_refl).
  vm_compute in H. apply H. reflexivity.
Qed.

(** C3, amended: the suggestions are the returned documents, one entry each,
in the order returned, and the returned documents keep the order the pool
lists them in: nothing is re-ordered. *)
Theorem suggestions_keep_pool_order (txn : Txn.t) (db : database) :
  Subsequence (candidates txn db) (pool txn db)
  /\ entries (show_suggestions (doctype_of txn) (candidates txn db))
     = map (render (doctype_of txn)) (candidates txn db).
Proof.
  split.
  - rewrite candidates_unfold.
    eapply Subsequence_trans; [apply Subsequence_cut | apply Subsequence_filter].
  - unfold show_suggestions. destruct (candidates txn db); reflexivity.
Qed.

(** Listed as 100 then 95, the two documents are suggested as 100 then 95. *)
Example listed_100_then_95 :
  candidates Samples.withdrawal_100 (Samples.payables [Samples.owing_100; Samples.owing_95])
  = [Samples.owing_100; Samples.owing_95].
Proof. reflexivity. Qed.

(** The Matcher of the specification, on the same two documents listed as 95
then 100, proposes the exact match first. *)
Example engine_matcher_ranks_exact_first :
  findCandidates default_tolerance (Samples.imported "BT-A" "ACME SUPPLY" 0 100)
                 (Samples.bills [Samples.open_bill "PINV-0095" 95;
                                 Samples.open_bill "PINV-0100" 100])
  = Normal [ {| for_transaction := "BT-A";
                proposed_candidate := "PINV-0100";
                proposed_type := Payable;
                amount_difference := Qabs (100 - 100) |};
             {| for_transaction := "BT-A";
                proposed_candidate := "PINV-0095";
                proposed_type := Payable;
                amount_difference := Qabs (95 - 100) |} ].
Proof. reflexivity. Qed.

(** ** No match *)




(** ** Direction and malformed transactions *)

(** C2, as worded, fails: the page checks nothing and throws nothing.  With
both amounts zero it searches the purchase invoices for a total of zero; with
both nonzero it takes the deposit and searches the sales invoices. *)
Lemma malformed_transaction_is_not_rejected :
  let w := Samples.idle (Samples.payables [Samples.owing_100]) in
  ~ well_formed Samples.no_amount
  /\ ~ well_formed Samples.both_amounts
  /\ load_match_suggestions Samples.no_amount w <> Throw "InvalidTransactionError"
  /\ load_match_suggestions Samples.both_amounts w <> Throw "InvalidTransactionError"
  /\ load_match_suggestions Samples.no_amount w
     = Normal {| this := this w;
                 match_suggestions := No_matching_documents_found;
                 server := server w |}
  /\ doctype (suggestion_query Samples.no_amount) = "Purchase Invoice"
  /\ doctype (suggestion_query Samples.both_amounts) = "Sales Invoice"
  /\ amount Samples.both_amounts = 40.
Proof.
  cbv zeta. repeat split; try reflexivity; try discriminate.
  - unfold well_formed. vm_compute. intros (_ & _ & [[H _] | [_ H]]); apply H; reflexivity.
  - unfold well_formed. vm_compute. intros (_ & _ & [[_ H] | [H _]]); discriminate H.
Qed.

(** C2, amended: the lookup never throws, whatever the amounts.  With both
amounts zero it searches the payable documents (Purchase Invoice) for a total
of zero; with both nonzero and a positive deposit it searches the receivable
documents (Sales Invoice) with the deposit.  For a well-formed transaction it
searches the receivable documents when the deposit is nonzero and the payable
ones when the withdrawal is nonzero, with that amount. *)
Theorem direction_selects_pool (txn : Txn.t) (w : world) :
  (exists w', load_match_suggestions txn w = Normal w')
  /\ (Txn.deposit txn == 0 -> Txn.withdrawal txn == 0 ->
      doctype (suggestion_query txn) = "Purchase Invoice"
      /\ pool txn (server w) = purchase_invoices (server w)
      /\ amount txn == 0)
  /\ (0 < Txn.deposit txn -> ~ Txn.withdrawal txn == 0 ->
      doctype (suggestion_query txn) = "Sales Invoice"
      /\ pool txn (server w) = sales_invoices (server w)
      /\ amount txn = Txn.deposit txn)
  /\ (well_formed txn ->
      (~ Txn.deposit txn == 0 ->
       doctype (suggestion_query txn) = "Sales Invoice"
       /\ pool txn (server w) = sales_invoices (server w)
       /\ amount txn = Txn.deposit txn)
      /\ (~ Txn.withdrawal txn == 0 ->
          doctype (suggestion_query txn) = "Purchase Invoice"
          /\ pool txn (server w) = purchase_invoices (server w)
          /\ amount txn = Txn.withdrawal txn)).
Proof.
  split; [eexists; reflexivity|].
  unfold pool, table, amount. cbn [suggestion_query doctype]. unfold doctype_of.
  destruct (isDeposit txn) eqn:E; unfold isDeposit in E.
  - apply Qltb_lt in E. split; [|split].
    + intros Hz _. exfalso. lra.
    + intros _ _. repeat split; reflexivity.
    + intros (Hd & Hw & Hx). split.
      * intros _. repeat split; reflexivity.
      * intro Hnz. exfalso. destruct Hx as [[_ Hz] | [Hz _]]; [apply Hnz; exact Hz | lra].
  - assert (Hle : Txn.deposit txn <= 0).
    { apply Qnot_lt_le. intro L. apply Qltb_lt in L. congruence. }
    split; [|split].
    + intros _ Hz. repeat split; try reflexivity. exact Hz.
    + intros Hpos _. exfalso. lra.
    + intros (Hd & Hw & Hx). split.
      * intro Hnz. exfalso. apply Hnz. lra.
      * intros _. repeat split; reflexivity.
Qed.

Lemma direction_selects_pool_witness :
  well_formed Samples.deposit_250
  /\ doctype (suggestion_query Samples.deposit_250) = "Sales Invoice"
  /\ doctype (suggestion_query Samples.no_amount) = "Purchase Invoice"
  /\ amount Samples.both_amounts = 40.
Proof.
  assert (Hwf : well_formed Samples.deposit_250).
  { unfold well_formed. vm_compute. split; [discriminate|]. split; [discriminate|].
    left. split; [discriminate | reflexivity]. }
  split; [exact Hwf|].
  destruct (direction_selects_pool Samples.deposit_250 (Samples.idle (Samples.payables [])))
    as (_ & _ & _ & Hgood).
  destruct (direction_selects_pool Samples.no_amount (Samples.idle (Samples.payables [])))
    as (_ & Hzero & _ & _).
  destruct (direction_selects_pool Samples.both_amounts (Samples.idle (Samples.payables [])))
    as (_ & _ & Hboth & _).
  split; [|split].
  - apply (proj1 (Hgood Hwf)). vm_compute. discriminate.
  - apply Hzero; reflexivity.
  - apply Hboth; [reflexivity | vm_compute; discriminate].
Defined.

(** ** Determinism and purity of the lookup *)




(** C8: the lookup writes nothing but the suggestion list it shows: the
reconciler object (its transactions, filter and open transaction) and every
server table are after the run what they were before it. *)
Theorem lookup_is_a_pure_query (txn : Txn.t) (w w' : world)
  (Hrun : load_match_suggestions txn w = Normal w') :
  this w' = this w
  /\ server w' = server w
  /\ match_suggestions w' = show_suggestions (doctype_of txn) (candidates txn (server w)).
Proof.
  unfold load_match_suggestions in Hrun. injection Hrun as <-.
  repeat split; reflexivity.
Qed.

Lemma lookup_is_a_pure_query_witness :
  let w := {| this := {| transactions := [Samples.withdrawal_100];
                         currentFilter := "all";
                         currentTransaction := Some Samples.withdrawal_100 |};
              match_suggestions := Untouched;
              server := {| sales_invoices := [];
                           purchase_invoices := [Samples.owing_100];
                           bank_transactions := [Samples.withdrawal_100];
                           page_length := limit |} |} in
  exists w',
    load_match_suggestions Samples.withdrawal_100 w = Normal w'
    /\ this w' = this w /\ server w' = server w.
Proof.
  intro w. eexists. split; [reflexivity|].
  pose proof (lookup_is_a_pure_query Samples.withdrawal_100 w _ eq_refl) as (H1 & H2 & _).
  split; [exact H1 | exact H2].
Defined.

(** ** The summary bar *)

Lemma filter_length_le_of_implies {A : Type} (f g : A -> bool) (l : list A) :
  (forall x, f x = true -> g x = true) ->
  (List.length (filter f l) <= List.length (filter g l))%nat.
Proof.
  intro Himp. induction l as [|x l IH]; simpl; [lia|].
  destruct (f x) eqn:Ef.
  - rewrite (Himp x Ef). simpl. lia.
  - destruct (g x); simpl; lia.
Qed.

(** C10: the Auto-Matched count never exceeds the Unreconciled count, and
every transaction counted as auto-matched is counted as unreconciled. *)
Theorem auto_matched_within_unreconciled (r : reconciler) :
  (auto_matched (update_summary r) <= unreconciled_count (update_summary r))%nat
  /\ incl (filter is_auto_matched (transactions r))
          (filter is_unreconciled (transactions r)).
Proof.
  assert (Himp : forall t, is_auto_matched t = true -> is_unreconciled t = true).
  { intros t H. unfold is_auto_matched in H. apply andb_true_iff in H. exact (proj2 H). }
  split.
  - cbn [update_summary auto_matched unreconciled_count].
    apply filter_length_le_of_implies. exact Himp.
  - intros t Ht. apply filter_In in Ht. apply filter_In.
    split; [exact (proj1 Ht) | apply Himp; exact (proj2 Ht)].
Qed.

(** * Properties of the engine *)

Section Engine_facts.

Variable tolerance : Q.
Variable ruleSet : list rule.

Lemma reconcile_by_rule_well_linked (t : transaction) (r : rule) :
  well_linked (reconcile_by_rule t r).
Proof. unfold well_linked. cbn. discriminate. Qed.

Lemma apply_proposals_well_linked (t : transaction) (m : memory) (offered : list proposal) :
  well_linked (fst (fst (apply_proposals t m offered))).
Proof.
  unfold apply_proposals.
  destruct offered as [|p [|q l]].
  - reflexivity.
  - destruct (Qeq_bool (amount_difference p) 0); unfold well_linked; cbn; discriminate.
  - unfold well_linked; cbn; discriminate.
Qed.

Lemma step_well_linked (t : transaction) (m : memory) :
  well_linked t -> well_linked (fst (fst (step tolerance ruleSet t m))).
Proof.
  intro Ht. unfold step.
  destruct (status t) eqn:Es; try exact Ht;
    destruct (matchedRule (categorize t ruleSet)) as [r|];
    try destruct (shouldAutoReconcile (categorize t ruleSet));
    try apply reconcile_by_rule_well_linked;
    destruct (findCandidates tolerance t (balances m)) as [offered|e];
    try exact Ht; apply apply_proposals_well_linked.
Qed.

Lemma pass_well_linked (txns : list transaction) (m : memory) :
  Forall well_linked txns ->
  Forall well_linked (map fst (fst (pass tolerance ruleSet txns m))).
Proof.
  revert m. induction txns as [|t rest IH]; intros m Hall.
  - constructor.
  - inversion Hall as [|? ? Ht Hrest]; subst.
    cbn [pass].
    pose proof (step_well_linked t m Ht) as Hstep.
    destruct (step tolerance ruleSet t m) as [[t' m'] o].
    specialize (IH m' Hrest).
    destruct (pass tolerance ruleSet rest m') as [done m''].
    cbn [fst map] in *. constructor; assumption.
Qed.

(** A transaction already reconciled is passed over. *)
Lemma step_skips_reconciled (t : transaction) (m : memory) :
  status t = Reconciled -> step tolerance ruleSet t m = (t, m, Skipped).
Proof. intro H. unfold step. rewrite H. reflexivity. Qed.

Lemma pass_skips_reconciled (txns : list transaction) (m : memory) (i : nat) (t : transaction) :
  nth_error txns i = Some t -> status t = Reconciled ->
  nth_error (fst (pass tolerance ruleSet txns m)) i = Some (t, Skipped).
Proof.
  revert m i. induction txns as [|u rest IH]; intros m i Hnth Hst.
  - destruct i; discriminate.
  - cbn [pass]. destruct i as [|i].
    + injection Hnth as ->. rewrite (step_skips_reconciled t m Hst).
      destruct (pass tolerance ruleSet rest m). reflexivity.
    + destruct (step tolerance ruleSet u m) as [[u' m'] o].
      specialize (IH m' i Hnth Hst).
      destruct (pass tolerance ruleSet rest m') as [done m'']. exact IH.
Qed.

(** A step either claims a candidate, or leaves the pass's memory alone. *)
Lemma step_memory (t : transaction) (m : memory) :
  (snd (step tolerance ruleSet t m) = Reconciled_by_match
   /\ exists cid, claimed (snd (fst (step tolerance ruleSet t m))) = cid :: claimed m)
  \/ (snd (step tolerance ruleSet t m) <> Reconciled_by_match
      /\ snd (fst (step tolerance ruleSet t m)) = m).
Proof.
  unfold step.
  destruct (status t); try (right; split; [discriminate | reflexivity]);
    destruct (matchedRule (categorize t ruleSet)) as [r|];
    try destruct (shouldAutoReconcile (categorize t ruleSet));
    try (right; split; [discriminate | reflexivity]);
    destruct (findCandidates tolerance t (balances m)) as [offered|e];
    try (right; split; [discriminate | reflexivity]);
    unfold apply_proposals;
    destruct offered as [|p [|q l]];
    try (right; split; [discriminate | reflexivity]);
    destruct (Qeq_bool (amount_difference p) 0);
    try (right; split; [discriminate | reflexivity]);
    left; (split; [reflexivity | eexists; reflexivity]).
Qed.

(** Stepping again a transaction that a step did not reconcile against a
candidate, with the same memory, changes nothing and reconciles nothing. *)
Lemma step_again (t : transaction) (m : memory) :
  snd (step tolerance ruleSet t m) <> Reconciled_by_match ->
  exists o,
    step tolerance ruleSet (fst (fst (step tolerance ruleSet t m))) m
    = (fst (fst (step tolerance ruleSet t m)), m, o)
    /\ is_reconciled o = false.
Proof.
  unfold step at 1 3 4.
  destruct (status t) eqn:Es.
  3: { intros _. cbn [fst snd]. exists Skipped.
       rewrite step_skips_reconciled by exact Es. split; reflexivity. }
  all: destruct (matchedRule (categorize t ruleSet)) as [r|] eqn:Er;
    [destruct (shouldAutoReconcile (categorize t ruleSet)) eqn:Ea|].
  all: try (intros _; cbn [fst snd]; exists Skipped;
            rewrite step_skips_reconciled by reflexivity; split; reflexivity).
  all: destruct (findCandidates tolerance t (balances m)) as [offered|e] eqn:Ef.
  all: try (intros _; cbn [fst snd]; exists (Failed e); unfold step;
            rewrite Es, Er, ?Ea, Ef; split; reflexivity).
  all: unfold apply_proposals; destruct offered as [|p [|q l]].
  all: try destruct (Qeq_bool (amount_difference p) 0) eqn:Ez.
  all: cbn [fst snd]; intro Hne; try (exfalso; apply Hne; reflexivity).
  all: match goal with
       | |- context [settle _ Unreconciled _ _] => exists No_proposal
       | |- context [settle _ Suggested _ _] => exists Offered
       end.
  all: unfold step; cbn [status settle];
    change (categorize (settle t _ _ _) ruleSet) with (categorize t ruleSet);
    rewrite Er, ?Ea;
    change (findCandidates tolerance (settle t _ _ _) (balances m))
      with (findCandidates tolerance t (balances m));
    rewrite Ef; unfold apply_proposals; rewrite ?Ez; split; reflexivity.
Qed.

End Engine_facts.

Section Pass_facts.

Variable tolerance : Q.
Variable ruleSet : list rule.

Lemma pass_claimed_grows (txns : list transaction) (m : memory) :
  exists l, claimed (snd (pass tolerance ruleSet txns m)) = (l ++ claimed m)%list.
Proof.
  revert m. induction txns as [|t rest IH]; intro m.
  - exists []. reflexivity.
  - cbn [pass].
    pose proof (step_memory tolerance ruleSet t m) as Hstep.
    destruct (step tolerance ruleSet t m) as [[t' m1] o]. cbn [fst snd] in Hstep.
    destruct (IH m1) as [l Hl].
    destruct (pass tolerance ruleSet rest m1) as [done m2]. cbn [snd] in *.
    destruct Hstep as [[_ [cid Hc]] | [_ ->]].
    + exists (l ++ [cid])%list. rewrite Hl, Hc, <- app_assoc. reflexivity.
    + exists l. exact Hl.
Qed.

(** A pass that claimed nothing can be run again from the same memory: the
second run changes no transaction and reconciles none. *)
Lemma pass_again (txns : list transaction) (m : memory) :
  claimed (snd (pass tolerance ruleSet txns m)) = [] ->
  snd (pass tolerance ruleSet txns m) = m
  /\ exists again,
      pass tolerance ruleSet (map fst (fst (pass tolerance ruleSet txns m))) m = (again, m)
      /\ map fst again = map fst (fst (pass tolerance ruleSet txns m))
      /\ count is_reconciled (map snd again) = 0%nat.
Proof.
  revert m. induction txns as [|t rest IH]; intros m Hnone.
  - split; [reflexivity|]. exists []. repeat split; reflexivity.
  - cbn [pass] in *.
    pose proof (step_memory tolerance ruleSet t m) as Hmem.
    pose proof (step_again tolerance ruleSet t m) as Hagain.
    destruct (step tolerance ruleSet t m) as [[t' m1] o]. cbn [fst snd] in Hmem, Hagain.
    pose proof (pass_claimed_grows rest m1) as [l Hl].
    specialize (IH m1).
    destruct (pass tolerance ruleSet rest m1) as [done m2]. cbn [fst snd map] in *.
    rewrite Hnone in Hl. symmetry in Hl. apply app_eq_nil in Hl. destruct Hl as [_ Hm1].
    destruct Hmem as [[_ [cid Hc]] | [Hne ->]]; [rewrite Hm1 in Hc; discriminate|].
    destruct (IH Hnone) as (-> & again & Hpass & Hsame & Hzero).
    destruct (Hagain Hne) as (o' & Hstep & Ho').
    split; [reflexivity|].
    exists ((t', o') :: again). cbn [pass]. rewrite Hstep, Hpass. cbn [map fst snd].
    split; [reflexivity|]. split; [rewrite Hsame; reflexivity|].
    unfold count in *. cbn [filter]. rewrite Ho'. exact Hzero.
Qed.

End Pass_facts.

Section Bulk_pass.

Variable txns : list transaction.
Variable provider : pools.
Variable ruleSet : list rule.

Let start : memory := {| balances := provider; claimed := [] |}.

Lemma runBulkPass_transactions :
  transactions_after (runBulkPass txns provider ruleSet)
  = map fst (fst (pass default_tolerance ruleSet txns start)).
Proof.
  unfold runBulkPass. fold start.
  destruct (pass default_tolerance ruleSet txns start). reflexivity.
Qed.

Lemma runBulkPass_memory :
  memory_after (runBulkPass txns provider ruleSet)
  = snd (pass default_tolerance ruleSet txns start).
Proof.
  unfold runBulkPass. fold start.
  destruct (pass default_tolerance ruleSet txns start). reflexivity.
Qed.

Lemma runBulkPass_result :
  result (runBulkPass txns provider ruleSet)
  = tally (map snd (fst (pass default_tolerance ruleSet txns start))).
Proof.
  unfold runBulkPass. fold start.
  destruct (pass default_tolerance ruleSet txns start). reflexivity.
Qed.

Lemma runBulkPass_well_linked :
  Forall well_linked txns ->
  Forall well_linked (transactions_after (runBulkPass txns provider ruleSet)).
Proof. intro H. rewrite runBulkPass_transactions. apply pass_well_linked. exact H. Qed.

Lemma runBulkPass_skips_reconciled (i : nat) (t : transaction) :
  nth_error txns i = Some t -> status t = Reconciled ->
  nth_error (transactions_after (runBulkPass txns provider ruleSet)) i = Some t.
Proof.
  intros Hnth Hst. rewrite runBulkPass_transactions, nth_error_map.
  rewrite (pass_skips_reconciled default_tolerance ruleSet txns start i t Hnth Hst).
  reflexivity.
Qed.

End Bulk_pass.

Lemma updateStatus_well_linked (txn_id : string) (v : link) (txns : list transaction) :
  Forall well_linked txns ->
  Forall well_linked (updateStatus txn_id Reconciled (Some v) txns).
Proof.
  intro H. unfold updateStatus. apply Forall_map.
  apply Forall_impl with (2 := H). intros t Ht.
  destruct (String.eqb (id t) txn_id); [|exact Ht].
  unfold well_linked. cbn. discriminate.
Qed.

Lemma reconcile_vouchers_well_linked (req : reconcile_request) (txns : list transaction) :
  Forall well_linked txns -> Forall well_linked (reconcile_vouchers req txns).
Proof.
  intro H. unfold reconcile_vouchers. destruct (vouchers req) as [|v rest]; [exact H|].
  apply updateStatus_well_linked. exact H.
Qed.

(** The page's request always names the open transaction and carries exactly
one voucher, with the document clicked. *)
Lemma match_to_document_request (doctype name : string) (r : reconciler)
  (req : reconcile_request) :
  match_to_document doctype name r = Normal req ->
  exists txn amount,
    currentTransaction r = Some txn
    /\ bank_transaction_name req = Txn.name txn
    /\ vouchers req = [ {| payment_doctype := doctype;
                           payment_name := name;
                           voucher_amount := amount |} ].
Proof.
  unfold match_to_document. destruct (currentTransaction r) as [txn|]; [|discriminate].
  intro H. injection H as <-. eexists. eexists. repeat split.
Qed.

(** ** Re-running the bulk pass *)

(** C4, as worded, fails on the engine the specification describes.  Two
withdrawals of 100 compete for one open bill of 100: the first pass gives it
to the first and leaves the second unreconciled; a second pass on the
resulting transactions, the provider handing out the same pool, reconciles
the second.  And with a withdrawal of 100, one of 95 and bills of 100 and 95,
the first pass only suggests for the first and reconciles the second against
the bill of 95; a second pass over the balances the first one left then
reconciles the first against the bill of 100. *)
Lemma second_pass_reconciles_more :
  (let provider := Samples.bills [Samples.open_bill "PINV-X" 100] in
   let first := runBulkPass Samples.rivals provider [] in
   map status (transactions_after first) = [Reconciled; Unreconciled]
   /\ reconciled (result (runBulkPass (transactions_after first) provider [])) = 1%nat)
  /\ (let provider := Samples.bills [Samples.open_bill "PINV-X" 100;
                                     Samples.open_bill "PINV-Z" 95] in
      let first := runBulkPass Samples.neighbours provider [] in
      map status (transactions_after first) = [Suggested; Reconciled]
      /\ reconciled (result (runBulkPass (transactions_after first)
                                         (balances (memory_after first)) [])) = 1%nat).
Proof. vm_compute. repeat split; reflexivity. Qed.

(** C4, amended: a second pass leaves every transaction that is already
Reconciled exactly as it is, whatever pools and rules it is given; and when
the first pass claimed no candidate document, a second pass with the same
pools and rules reconciles nothing and changes no transaction. *)
Theorem second_pass_skips_reconciled (txns : list transaction) (provider : pools)
  (ruleSet : list rule) :
  let first := runBulkPass txns provider ruleSet in
  (forall (provider2 : pools) (ruleSet2 : list rule) (i : nat) (t : transaction),
      nth_error (transactions_after first) i = Some t ->
      status t = Reconciled ->
      nth_error (transactions_after
                   (runBulkPass (transactions_after first) provider2 ruleSet2)) i
      = Some t)
  /\ (claimed (memory_after first) = [] ->
      let second := runBulkPass (transactions_after first) provider ruleSet in
      reconciled (result second) = 0%nat
      /\ transactions_after second = transactions_after first).
Proof.
  cbv zeta. split.
  - intros provider2 ruleSet2 i t Hnth Hst.
    apply runBulkPass_skips_reconciled; assumption.
  - intro Hnone. rewrite runBulkPass_memory in Hnone.
    destruct (pass_again default_tolerance ruleSet txns _ Hnone)
      as (_ & again & Hpass & Hsame & Hzero).
    rewrite (runBulkPass_result (transactions_after _)),
            (runBulkPass_transactions (transactions_after _)).
    rewrite (runBulkPass_transactions txns). rewrite Hpass. cbn [fst].
    split; [exact Hzero | exact Hsame].
Qed.

(** A pass that suggests for one transaction and reconciles the other by
rule claims nothing; the second pass reconciles nothing. *)
Lemma second_pass_skips_reconciled_witness :
  let provider := Samples.bills [Samples.open_bill "PINV-X" 100;
                                 Samples.open_bill "PINV-Z" 95] in
  let first := runBulkPass Samples.mixed provider [Samples.uber_rule] in
  map status (transactions_after first) = [Suggested; Reconciled]
  /\ reconciled (result (runBulkPass (transactions_after first) provider
                                     [Samples.uber_rule])) = 0%nat.
Proof.
  intros provider first. split; [reflexivity|].
  exact (proj1 (proj2 (second_pass_skips_reconciled Samples.mixed provider
                         [Samples.uber_rule]) eq_refl)).
Defined.

(** ** The status invariant *)

(** C6, as worded, fails on the engine the specification describes: a
Suggested transaction can be left without any open proposal.  With
withdrawals of 100, 96 and 104 and open bills of 96 and 104, the pass offers
both bills to the first withdrawal, then reconciles the second withdrawal
against the bill of 96 and the third against the bill of 104: the first is
Suggested, and both bills it was offered are claimed, their balance zero. *)
Lemma suggested_without_open_proposal :
  let provider := Samples.bills [Samples.open_bill "PINV-96" 96;
                                 Samples.open_bill "PINV-104" 104] in
  let after := runBulkPass Samples.crowded provider [] in
  reachable Samples.crowded (transactions_after after)
  /\ Forall well_linked Samples.crowded
  /\ map status (transactions_after after) = [Suggested; Reconciled; Reconciled]
  /\ claimed (memory_after after) = ["PINV-104"; "PINV-96"]
  /\ exists t,
      nth_error (transactions_after after) 0 = Some t
      /\ status t = Suggested
      /\ map proposed_candidate (last_offered t) = ["PINV-104"; "PINV-96"]
      /\ has_open_proposal (balances (memory_after after)) t = false.
Proof.
  cbv zeta. split; [apply reach_bulk, reach_start|].
  split; [repeat constructor|].
  split; [vm_compute; reflexivity|]. split; [vm_compute; reflexivity|].
  eexists. split; [vm_compute; reflexivity|].
  split; [reflexivity|]. split; vm_compute; reflexivity.
Qed.

(** C6, amended: starting from transactions that satisfy it, every state the
bulk pass and the page's manual match lead to satisfies the invariant: a
Reconciled transaction has a linked voucher, a Suggested one has the
proposals it was last offered, which later claims of the pass may have
closed, an Unreconciled one has none. *)
Theorem reachable_states_are_well_linked (start s : list transaction)
  (Hstart : Forall well_linked start) (Hreach : reachable start s) :
  Forall well_linked s.
Proof.
  induction Hreach as [|s provider ruleSet Hreach IH|s doctype name r req Hreach IH Hreq].
  - exact Hstart.
  - apply runBulkPass_well_linked. exact IH.
  - apply reconcile_vouchers_well_linked. exact IH.
Qed.

Lemma reachable_states_are_well_linked_witness :
  let provider := Samples.bills [Samples.open_bill "PINV-X" 100;
                                 Samples.open_bill "PINV-Z" 95] in
  let opened := {| transactions := [];
                   currentFilter := "all";
                   currentTransaction := Some (Samples.bank_txn "BT-A" 0 100) |} in
  let request := {| bank_transaction_name := "BT-A";
                    vouchers := [ {| payment_doctype := "Purchase Invoice";
                                     payment_name := "PINV-X";
                                     voucher_amount := 100 |} ] |} in
  Forall well_linked
    (reconcile_vouchers request
       (transactions_after (runBulkPass Samples.mixed provider [Samples.uber_rule]))).
Proof.
  intros provider opened request.
  apply (reachable_states_are_well_linked Samples.mixed).
  - repeat constructor.
  - apply (reach_manual _ _ "Purchase Invoice" "PINV-X" opened request).
    + apply reach_bulk. apply reach_start.
    + reflexivity.
Defined.

(** * Properties of the transaction list *)

Section Tab_facts.

Variable l : list Txn.t.

Lemma apply_filter_unreconciled :
  apply_filter "unreconciled" l
  = filter (fun t => negb (String.eqb (Txn.status t) "Reconciled")) l.
Proof. reflexivity. Qed.

Lemma apply_filter_reconciled :
  apply_filter "reconciled" l = filter (fun t => String.eqb (Txn.status t) "Reconciled") l.
Proof. reflexivity. Qed.

Lemma apply_filter_deposits :
  apply_filter "deposits" l = filter (fun t => Qltb 0 (Txn.deposit t)) l.
Proof. reflexivity. Qed.

Lemma apply_filter_withdrawals :
  apply_filter "withdrawals" l = filter (fun t => Qltb 0 (Txn.withdrawal t)) l.
Proof. reflexivity. Qed.

Lemma on_deposits_tab (t : Txn.t) :
  In t (apply_filter "deposits" l) <-> In t l /\ 0 < Txn.deposit t.
Proof. rewrite apply_filter_deposits, filter_In, Qltb_lt. reflexivity. Qed.

Lemma on_withdrawals_tab (t : Txn.t) :
  In t (apply_filter "withdrawals" l) <-> In t l /\ 0 < Txn.withdrawal t.
Proof. rewrite apply_filter_withdrawals, filter_In, Qltb_lt. reflexivity. Qed.

End Tab_facts.

Lemma filter_complement_length {A : Type} (f : A -> bool) (l : list A) :
  (List.length (filter f l) + List.length (filter (fun x => negb (f x)) l)
   = List.length l)%nat.
Proof.
  induction l as [|x l IH]; simpl; [reflexivity|].
  destruct (f x); simpl; lia.
Qed.

(** X1: the Unreconciled and Reconciled tabs split the loaded list: their
sizes add up to the size of the list, and a loaded transaction is on one of
them exactly when it is not on the other. *)
Theorem status_tabs_split_the_list (l : list Txn.t) :
  (List.length (apply_filter "unreconciled" l) + List.length (apply_filter "reconciled" l)
   = List.length l)%nat
  /\ forall t, In t l ->
       (In t (apply_filter "unreconciled" l) <-> ~ In t (apply_filter "reconciled" l)).
Proof.
  rewrite apply_filter_unreconciled, apply_filter_reconciled. split.
  - rewrite Nat.add_comm.
    apply (filter_complement_length (fun t => String.eqb (Txn.status t) "Reconciled")).
  - intros t Hin. rewrite !filter_In.
    destruct (String.eqb (Txn.status t) "Reconciled"); simpl; split.
    + intros [_ H]. discriminate H.
    + intro H. exfalso. apply H. split; [exact Hin | reflexivity].
    + intros _ [_ H]. discriminate H.
    + intros _. split; [exact Hin | reflexivity].
Qed.

Lemma status_tabs_split_the_list_witness :
  In (Txn.Build "BT-0103" "2024-03-02" "" 0 40 40 "Pending" None None None)
     (apply_filter "unreconciled" statement).
Proof.
  apply (proj2 (status_tabs_split_the_list statement)).
  - vm_compute. right. right. left. reflexivity.
  - vm_compute. intros [H | [H | []]]; discriminate H.
Defined.

(** X2: the badges of the full list agree with the summary bar: as many
Suggested badges as the Auto-Matched count, and the Suggested and Pending
badges together are the Unreconciled count, the Reconciled badges the
rest. *)
Theorem badges_agree_with_summary (r : reconciler) :
  badge_count Badge_suggested (all_rows r) = auto_matched (update_summary r)
  /\ (badge_count Badge_suggested (all_rows r) + badge_count Badge_pending (all_rows r)
      = unreconciled_count (update_summary r))%nat
  /\ (badge_count Badge_reconciled (all_rows r) + unreconciled_count (update_summary r)
      = List.length (transactions r))%nat.
Proof.
  unfold all_rows, badge_count. cbn [update_summary auto_matched unreconciled_count].
  induction (transactions r) as [|t l (IH1 & IH2 & IH3)]; [repeat split|].
  cbn [map filter row_badge render_row].
  assert (Hb : badge_of t
               = if String.eqb (Txn.status t) "Reconciled" then Badge_reconciled
                 else if Qeq_bool (Txn.unallocated_amount t) 0 then Badge_suggested
                      else Badge_pending).
  { unfold badge_of, hasSuggestion, isReconciled.
    destruct (String.eqb (Txn.status t) "Reconciled");
      destruct (Qeq_bool (Txn.unallocated_amount t) 0); reflexivity. }
  assert (Ha : is_auto_matched t
               = Qeq_bool (Txn.unallocated_amount t) 0
                 && negb (String.eqb (Txn.status t) "Reconciled")) by reflexivity.
  assert (Hu : is_unreconciled t = negb (String.eqb (Txn.status t) "Reconciled"))
    by reflexivity.
  rewrite Hb, Ha, Hu.
  destruct (String.eqb (Txn.status t) "Reconciled");
    destruct (Qeq_bool (Txn.unallocated_amount t) 0);
    cbn [negb andb badge_eqb List.length];
    repeat split; lia.
Qed.

(** X3: every row of the Reconciled tab carries the Reconciled badge and the
[reconciled] row class, also when nothing is left to allocate; no row of the
Unreconciled tab carries the Reconciled badge. *)
Theorem tab_rows_carry_the_tab_status (l : list Txn.t) (x : row) :
  (In x (map render_row (apply_filter "reconciled" l)) ->
   row_badge x = Badge_reconciled /\ row_class x = "transaction-row reconciled")
  /\ (In x (map render_row (apply_filter "unreconciled" l)) ->
      row_badge x <> Badge_reconciled /\ row_class x <> "transaction-row reconciled").
Proof.
  rewrite apply_filter_unreconciled, apply_filter_reconciled. split; intro H;
    apply in_map_iff in H; destruct H as (t & <- & Ht);
    apply filter_In in Ht; destruct Ht as [_ Hs];
    cbn [render_row row_badge row_class]; unfold badge_of, rowClass, isReconciled.
  - rewrite Hs. split; reflexivity.
  - apply negb_true_iff in Hs. rewrite Hs.
    destruct (hasSuggestion t); split; discriminate.
Qed.

Lemma tab_rows_carry_the_tab_status_witness :
  row_badge (render_row (Txn.Build "BT-0104" "2024-03-01" "RENT" 0 900 0 "Reconciled"
                                   None None None))
  = Badge_reconciled.
Proof.
  refine (proj1 (proj1 (tab_rows_carry_the_tab_status statement _) _)).
  vm_compute. right. left. reflexivity.
Defined.

(** ** The Deposits and Withdrawals tabs *)

Lemma isDeposit_iff (t : Txn.t) : isDeposit t = true <-> 0 < Txn.deposit t.
Proof. unfold isDeposit. apply Qltb_lt. Qed.

Lemma isDeposit_false_iff (t : Txn.t) : isDeposit t = false <-> Txn.deposit t <= 0.
Proof.
  split.
  - intro H. apply Qnot_lt_le. intro L. apply isDeposit_iff in L. congruence.
  - intro H. destruct (isDeposit t) eqn:E; [|reflexivity].
    apply isDeposit_iff in E. exfalso. apply (Qlt_not_le _ _ E H).
Qed.

(** X4: a well-formed transaction of the loaded list is on exactly one of the
Deposits and Withdrawals tabs, and its row shows the sign and the amount of
that side. *)
Theorem well_formed_is_on_one_amount_tab (l : list Txn.t) (t : Txn.t)
  (Hwf : well_formed t) (Hin : In t l) :
  (In t (apply_filter "deposits" l) /\ ~ In t (apply_filter "withdrawals" l)
   /\ row_sign (render_row t) = "+" /\ row_amount (render_row t) = Txn.deposit t)
  \/ (~ In t (apply_filter "deposits" l) /\ In t (apply_filter "withdrawals" l)
      /\ row_sign (render_row t) = "-" /\ row_amount (render_row t) = Txn.withdrawal t).
Proof.
  destruct Hwf as (Hd & Hw & [[Hnz Hz] | [Hz Hnz]]);
    rewrite on_deposits_tab, on_withdrawals_tab;
    cbn [render_row row_sign row_amount]; unfold amount.
  - left. assert (Hpos : 0 < Txn.deposit t).
    { apply Qle_lteq in Hd. destruct Hd as [Hd | Hd]; [exact Hd|].
      exfalso. apply Hnz. symmetry. exact Hd. }
    rewrite (proj2 (isDeposit_iff t) Hpos). repeat split; try assumption.
    intros [_ H]. lra.
  - right. assert (Hpos : 0 < Txn.withdrawal t).
    { apply Qle_lteq in Hw. destruct Hw as [Hw | Hw]; [exact Hw|].
      exfalso. apply Hnz. symmetry. exact Hw. }
    assert (Hnd : isDeposit t = false) by (apply isDeposit_false_iff; lra).
    rewrite Hnd. repeat split; try assumption.
    intros [_ H]. lra.
Qed.

Lemma well_formed_is_on_one_amount_tab_witness :
  In Samples.withdrawal_100 (apply_filter "withdrawals" [Samples.deposit_250; Samples.withdrawal_100]).
Proof.
  assert (Hwf : well_formed Samples.withdrawal_100).
  { unfold well_formed. vm_compute. split; [discriminate|]. split; [discriminate|].
    right. split; [reflexivity | discriminate]. }
  assert (Hin : In Samples.withdrawal_100 [Samples.deposit_250; Samples.withdrawal_100])
    by (right; left; reflexivity).
  destruct (well_formed_is_on_one_amount_tab _ _ Hwf Hin) as [(_ & _ & Hs & _) | (_ & H & _)].
  - vm_compute in Hs. discriminate Hs.
  - exact H.
Defined.

(** X5: a transaction with neither a deposit nor a withdrawal is on neither
amount tab; the full list shows it as a withdrawal, with a minus sign. *)
Theorem zero_amounts_on_no_amount_tab (l : list Txn.t) (t : Txn.t)
  (Hd : Txn.deposit t == 0) (Hw : Txn.withdrawal t == 0) :
  ~ In t (apply_filter "deposits" l)
  /\ ~ In t (apply_filter "withdrawals" l)
  /\ row_sign (render_row t) = "-"
  /\ row_amount_class (render_row t) = "withdrawal"
  /\ row_amount (render_row t) == 0.
Proof.
  rewrite on_deposits_tab, on_withdrawals_tab.
  cbn [render_row row_sign row_amount row_amount_class]. unfold amount.
  assert (Hnd : isDeposit t = false) by (apply isDeposit_false_iff; lra).
  rewrite Hnd. repeat split; try exact Hw; intros [_ H]; lra.
Qed.

Lemma zero_amounts_on_no_amount_tab_witness :
  ~ In Samples.no_amount (apply_filter "withdrawals" [Samples.no_amount]).
Proof.
  refine (proj1 (proj2 (zero_amounts_on_no_amount_tab [Samples.no_amount] Samples.no_amount _ _)));
    reflexivity.
Defined.

(** X6: a transaction with both a deposit and a withdrawal is on both amount
tabs, and everywhere, the Withdrawals tab included, its row shows the deposit
with a plus sign. *)
Theorem both_amounts_on_both_tabs (l : list Txn.t) (t : Txn.t)
  (Hin : In t l) (Hd : 0 < Txn.deposit t) (Hw : 0 < Txn.withdrawal t) :
  In t (apply_filter "deposits" l)
  /\ In t (apply_filter "withdrawals" l)
  /\ In (render_row t) (map render_row (apply_filter "withdrawals" l))
  /\ row_sign (render_row t) = "+"
  /\ row_amount_class (render_row t) = "deposit"
  /\ row_amount (render_row t) = Txn.deposit t.
Proof.
  assert (H1 : In t (apply_filter "deposits" l)) by (apply on_deposits_tab; auto).
  assert (H2 : In t (apply_filter "withdrawals" l)) by (apply on_withdrawals_tab; auto).
  split; [exact H1|]. split; [exact H2|]. split; [apply in_map; exact H2|].
  cbn [render_row row_sign row_amount row_amount_class]. unfold amount.
  rewrite (proj2 (isDeposit_iff t) Hd). repeat split.
Qed.

Lemma both_amounts_on_both_tabs_witness :
  In Samples.both_amounts (apply_filter "withdrawals" [Samples.both_amounts])
  /\ row_sign (render_row Samples.both_amounts) = "+".
Proof.
  assert (Hin : In Samples.both_amounts [Samples.both_amounts]) by (left; reflexivity).
  assert (Hd : 0 < Txn.deposit Samples.both_amounts) by reflexivity.
  assert (Hw : 0 < Txn.withdrawal Samples.both_amounts) by reflexivity.
  destruct (both_amounts_on_both_tabs _ _ Hin Hd Hw) as (_ & H2 & _ & H4 & _).
  split; [exact H2 | exact H4].
Defined.

(** ** The totals of the summary bar *)

(** The totals are sums of doubles, added from the first transaction to the
last: deposits of 0.1 and 0.2 total 0.30000000000000004. *)
Example total_of_a_tenth_and_a_fifth :
  total_deposits
    (update_summary (holding [Samples.bank_txn "BT-0301" 0.1 0;
                              Samples.bank_txn "BT-0302" 0.2 0] "all"))
  = 1351079888211149 # 4503599627370496.
Proof. vm_compute. reflexivity. Qed.

(** X8: when every loaded transaction is Reconciled, the Unreconciled tab
shows the empty-list notice, the Reconciled tab holds the whole list, and the
summary bar counts no unreconciled and no auto-matched transaction. *)
Theorem all_reconciled_leaves_nothing_open (r : reconciler)
  (Hall : Forall (fun t => Txn.status t = "Reconciled") (transactions r)) :
  snd (click_tab "unreconciled" r) = No_transactions_found
  /\ apply_filter "reconciled" (transactions r) = transactions r
  /\ unreconciled_count (update_summary r) = 0%nat
  /\ auto_matched (update_summary r) = 0%nat.
Proof.
  unfold click_tab, render_transactions.
  cbn [snd transactions currentFilter update_summary unreconciled_count auto_matched].
  rewrite apply_filter_unreconciled, apply_filter_reconciled.
  induction Hall as [|t l Ht Hl (IH1 & IH2 & IH3 & IH4)]; [repeat split|].
  cbn [filter]. unfold is_unreconciled, is_auto_matched.
  rewrite Ht, String.eqb_refl, andb_false_r. cbn [negb].
  repeat split; try assumption. rewrite IH2. reflexivity.
Qed.

Lemma all_reconciled_leaves_nothing_open_witness :
  snd (click_tab "unreconciled" (holding settled "all")) = No_transactions_found.
Proof.
  refine (proj1 (all_reconciled_leaves_nothing_open (holding settled "all") _)).
  repeat constructor.
Defined.

(** * Properties of the match dialog *)

(** X9: for an open transaction whose deposit is not negative, the request
[match_to_document] sends names that transaction and carries one voucher, for
the amount the row shows and the suggestions were searched with. *)
Theorem voucher_amount_is_lookup_amount (doctype name : string) (r : reconciler)
  (txn : Txn.t)
  (Hopen : currentTransaction r = Some txn)
  (Hdep : 0 <= Txn.deposit txn) :
  match_to_document doctype name r
  = Normal {| bank_transaction_name := Txn.name txn;
              vouchers := [ {| payment_doctype := doctype;
                               payment_name := name;
                               voucher_amount := amount txn |} ] |}
  /\ amount txn = row_amount (render_row txn).
Proof.
  split; [|reflexivity].
  unfold match_to_document. rewrite Hopen. do 4 f_equal.
  unfold num_or, amount.
  destruct (Qeq_bool (Txn.deposit txn) 0) eqn:E.
  - apply Qeq_bool_iff in E.
    assert (Hnd : isDeposit txn = false) by (apply isDeposit_false_iff; lra).
    rewrite Hnd. reflexivity.
  - apply Qeq_bool_neq in E.
    assert (Hpos : 0 < Txn.deposit txn).
    { apply Qle_lteq in Hdep. destruct Hdep as [H | H]; [exact H|].
      exfalso. apply E. symmetry. exact H. }
    rewrite (proj2 (isDeposit_iff txn) Hpos). reflexivity.
Qed.

Lemma voucher_amount_is_lookup_amount_witness :
  match_to_document "Purchase Invoice" "PINV-0100"
    {| transactions := [Samples.withdrawal_100];
       currentFilter := "all";
       currentTransaction := Some Samples.withdrawal_100 |}
  = Normal {| bank_transaction_name := "BT-0001";
              vouchers := [ {| payment_doctype := "Purchase Invoice";
                               payment_name := "PINV-0100";
                               voucher_amount := amount Samples.withdrawal_100 |} ] |}.
Proof.
  refine (proj1 (voucher_amount_is_lookup_amount "Purchase Invoice" "PINV-0100"
                   {| transactions := [Samples.withdrawal_100];
                      currentFilter := "all";
                      currentTransaction := Some Samples.withdrawal_100 |}
                   Samples.withdrawal_100 eq_refl _)).
  vm_compute. discriminate.
Defined.

(** X10: opening the dialog for a name that no loaded transaction has changes
nothing: the suggestion list and the open transaction stay what they were. *)
Theorem unknown_name_opens_nothing (transactionName : string) (w : world)
  (Hnone : forall t, In t (transactions (this w)) -> Txn.name t <> transactionName) :
  open_match_modal transactionName w = Normal w.
Proof.
  unfold open_match_modal.
  destruct (find _ (transactions (this w))) as [txn|] eqn:E; [|reflexivity].
  apply find_some in E. destruct E as [Hin Heq].
  apply String.eqb_eq in Heq. exfalso. exact (Hnone txn Hin Heq).
Qed.

Lemma unknown_name_opens_nothing_witness :
  let w := {| this := {| transactions := [Samples.withdrawal_100];
                         currentFilter := "all";
                         currentTransaction := Some Samples.withdrawal_100 |};
              match_suggestions := No_matching_documents_found;
              server := Samples.payables [Samples.owing_100] |} in
  open_match_modal "BT-9999" w = Normal w.
Proof.
  intro w. apply (unknown_name_opens_nothing "BT-9999" w).
  intros t [<- | []]. vm_compute. discriminate.
Defined.



(** ** The proposed rule pattern *)

Lemma substring_from_start (n : nat) (s : string) :
  String.length (substring 0 n s) = Nat.min n (String.length s)
  /\ prefix (substring 0 n s) s = true.
Proof.
  revert n. induction s as [|c s IH]; intros [|n]; cbn; try (split; reflexivity).
  destruct (IH n) as [Hlen Hpre]. rewrite Hlen, Hpre.
  split; [reflexivity|]. destruct (ascii_dec c c) as [_|Hne]; [reflexivity|].
  exfalso. apply Hne. reflexivity.
Qed.

(** X12: the pattern the dialog proposes for a new rule is the beginning of
the transaction's description, cut at 30 characters: the whole description
when it is no longer than that, and the empty pattern when there is no
description. *)
Theorem rule_pattern_is_description_start (txn : Txn.t) :
  prefix (rule_pattern txn) (Txn.description txn) = true
  /\ String.length (rule_pattern txn) = Nat.min 30 (String.length (Txn.description txn))
  /\ ((String.length (Txn.description txn) <= 30)%nat ->
      rule_pattern txn = Txn.description txn).
Proof.
  unfold rule_pattern.
  destruct (String.eqb (Txn.description txn) "") eqn:E.
  - apply String.eqb_eq in E. rewrite E. repeat split.
  - destruct (substring_from_start 30 (Txn.description txn)) as [Hlen Hpre].
    split; [exact Hpre|]. split; [exact Hlen|].
    intro Hle. clear E Hlen Hpre. revert Hle.
    generalize 30%nat as n. induction (Txn.description txn) as [|c s IH]; intros n Hle.
    + destruct n; reflexivity.
    + destruct n as [|n]; [cbn in Hle; lia|].
      cbn [substring]. f_equal. apply IH. cbn in Hle. lia.
Qed.

Lemma rule_pattern_is_description_start_witness :
  rule_pattern Samples.withdrawal_100 = "ACME SUPPLY".
Proof.
  refine (proj2 (proj2 (rule_pattern_is_description_start Samples.withdrawal_100)) _).
  vm_compute. lia.
Defined.

(** A description longer than 30 characters is cut. *)
Example long_description_is_cut :
  rule_pattern (Txn.Build "BT-0200" "2024-03-01"
                          "POS PURCHASE 4471 ORLANDO FL CARD 9921 REF 88812"
                          0 12 12 "Unreconciled" None None None)
  = "POS PURCHASE 4471 ORLANDO FL C".
Proof. reflexivity. Qed.
